(** * The Button component of packages/components/src/button/button.tsx

    A shallow embedding of [omitValidElementProps], [Button] and
    [ButtonContent].  Property bags and style objects are finite maps from
    property names to JavaScript values; a component is a function from its
    property bag to the React element it returns. *)

From stdpp Require Import gmap strings list fin_maps pretty.

Local Open Scope string_scope.

(** ** JavaScript values and React elements *)

(** What a JSX tag can name: a host tag ([<span>]), a factory element of the
    style system ([<chakra.button>]), a fragment ([<>...</>]) or a component
    whose body is not part of this file ([<ButtonIcon>], [<ButtonSpinner>]). *)
Inductive etype : Type :=
| Host (tag : string)
| Chakra (tag : string)
| Fragment
| Component (name : string).

(** The values a property of [ButtonProps] ranges over.  Numbers are the
    integers; a React element keeps its JSX children next to its props. *)
#[warnings="-register-all"]
Inductive value : Type :=
| VUndefined
| VNull
| VBool (b : bool)
| VNum (n : Z)
| VStr (s : string)
| VObj (fields : gmap string value)
| VElem (ty : etype) (props : gmap string value) (children : list value).

Abbreviation obj := (gmap string value).

Module JS.

(** [o.k], [undefined] for a missing key. *)
Definition get (o : obj) (k : string) : value := default VUndefined (o !! k).

(** ToBoolean. *)
Definition truthy (v : value) : bool :=
  match v with
  | VUndefined | VNull => false
  | VBool b => b
  | VNum n => negb (n =? 0)%Z
  | VStr s => negb (String.eqb s EmptyString)
  | VObj _ | VElem _ _ _ => true
  end.

(** [a || b], [a && b], [a ?? b] and [!a]. *)
Definition or_ (a b : value) : value := if truthy a then a else b.
Definition and_ (a b : value) : value := if truthy a then b else a.
Definition nullish (a b : value) : value :=
  match a with VUndefined | VNull => b | _ => a end.
Definition not_ (a : value) : value := VBool (negb (truthy a)).

(** [v === "s"]. *)
Definition strict_eq_str (v : value) (s : string) : value :=
  match v with VStr t => VBool (String.eqb t s) | _ => VBool false end.

(** A destructuring default, [{ k = d } = o]: the default replaces
    [undefined] only. *)
Definition get_default (o : obj) (k : string) (d : value) : value :=
  match get o k with VUndefined => d | v => v end.

(** The rest of a destructuring pattern, [{ k1, ..., kn, ...rest } = o]. *)
Definition omit (keys : list string) (o : obj) : obj :=
  foldr delete o keys.

(** The own enumerable properties [...v] copies: the fields of an object,
    the indexed characters of a string, nothing for the other primitives.
    The internal fields of a React element are not modelled. *)
Fixpoint string_entries (i : N) (s : string) : list (string * value) :=
  match s with
  | EmptyString => []
  | String c s' => (pretty i, VStr (String c EmptyString)) :: string_entries (N.succ i) s'
  end.

Definition spread (v : value) : obj :=
  match v with
  | VObj o => o
  | VStr s => list_to_map (string_entries 0 s)
  | _ => ∅
  end.

(** One entry of an object literal or of a JSX attribute list. *)
Inductive entry : Type :=
| Field (k : string) (v : value)
| Spread (o : obj).

(** Entries are applied left to right, a later one overwriting. *)
Definition put (acc : obj) (e : entry) : obj :=
  match e with
  | Field k v => <[k := v]> acc
  | Spread o => o ∪ acc
  end.

Definition object (entries : list entry) : obj := foldl put ∅ entries.

(** ToString, as [Array.prototype.join] applies it. *)
Definition to_string (v : value) : string :=
  match v with
  | VUndefined | VNull => EmptyString
  | VBool true => "true"
  | VBool false => "false"
  | VNum n => pretty n
  | VStr s => s
  | VObj _ | VElem _ _ _ => "[object Object]"
  end.

End JS.

Import JS.

Module React.

(** [isValidElement] of React. *)
Definition isValidElement (v : value) : bool :=
  match v with VElem _ _ _ => true | _ => false end.

(** [<ty {...attrs}>children</ty>]. *)
Definition jsx (ty : etype) (attrs : list entry) (children : list value) : value :=
  VElem ty (object attrs) children.

Definition elem_type (v : value) : option etype :=
  match v with VElem ty _ _ => Some ty | _ => None end.
Definition elem_props (v : value) : obj :=
  match v with VElem _ p _ => p | _ => ∅ end.
Definition elem_children (v : value) : list value :=
  match v with VElem _ _ c => c | _ => [] end.

(** Children for which React creates no node: [undefined], [null], the
    booleans and the empty string. *)
Definition renders_nothing (v : value) : bool :=
  match v with
  | VUndefined | VNull | VBool _ => true
  | VStr s => String.eqb s EmptyString
  | _ => false
  end.

(** The child nodes React creates, in document order. *)
Definition child_nodes (children : list value) : list value :=
  List.filter (fun v => negb (renders_nothing v)) children.

(** How React DOM writes a [data-*] attribute: none for [undefined] and
    [null], the string form of any other value, booleans included. *)
Definition dom_data_attr (v : value) : option string :=
  match v with
  | VUndefined | VNull => None
  | _ => Some (to_string v)
  end.

End React.

Import React.

(** ** Helpers imported from other packages *)

Module Utils.

(** Modelled from the spec: [objectFilter] is imported from @chakra-ui/utils
    and its body is not in button.tsx.  It keeps the properties of a bag
    whose value passes the test ("filter out any property whose value
    is ..."). *)
Definition objectFilter (o : obj) (fn : value → bool) : obj :=
  filter (λ kv, fn kv.2 = true) o.

(** Modelled from the spec: the class-name concatenation helper [cx] is
    imported from @chakra-ui/utils and its body is not in button.tsx.  The
    class names that are given are joined, space-separated. *)
Definition cx (classNames : list value) : string :=
  String.concat " " (to_string <$> List.filter truthy classNames).

(** Modelled from the spec: [dataAttr] is imported from @chakra-ui/utils and
    its body is not in button.tsx.  A data attribute is "present only when
    true, absent otherwise -- never rendered as false": the empty marker for
    a truthy condition, [undefined] otherwise. *)
Definition dataAttr (condition : value) : value :=
  if truthy condition then VStr EmptyString else VUndefined.

(** Modelled from the spec: the theming-variant selector of a property bag,
    which is the style variant name, the size and the color scheme. *)
Definition themingProps : list string := ["variant"; "size"; "colorScheme"].

(** Modelled from the spec: [omitThemingProps] is imported from
    @chakra-ui/styled-system and its body is not in button.tsx.  It drops
    the theming-variant selector from a property bag. *)
Definition omitThemingProps (props : obj) : obj := omit themingProps props.

End Utils.

Import Utils.

(** The hooks [Button] calls.  The theme engine, the ambient group context,
    the type detection and the ref merging are collaborators outside this
    file; a render pass sees them as these four values. *)
Record hooks : Type := Hooks {
  (** [useButtonGroup ()]: the group settings, [None] outside a group. *)
  useButtonGroup : option obj;
  (** [useStyleConfig (themeKey, props)]: the resolved style object. *)
  useStyleConfig : string → obj → obj;
  (** [useButtonType (as)]: an object with fields [ref] and [type]. *)
  useButtonType : value → obj;
  (** [useMergeRefs (a, b)]. *)
  useMergeRefs : value → value → value
}.

(** The group as a JavaScript value, for [group?.k], [...group] and [!!group]. *)
Definition group_value (group : option obj) : value :=
  match group with Some g => VObj g | None => VUndefined end.

(** [group?.k]. *)
Definition group_get (group : option obj) (k : string) : value :=
  match group with Some g => get g k | None => VUndefined end.

(** ** [omitValidElementProps] (lines 25-27) *)

Definition omitValidElementProps (props : obj) : obj :=
  objectFilter props (λ value, negb (isValidElement value)).

(** ** [ButtonContent] (lines 146-173) *)

Definition ButtonIcon (attrs : list entry) (children : list value) : value :=
  jsx (Component "ButtonIcon") attrs children.

Definition ButtonContent (props : obj) : value :=
  let leftIcon := get props "leftIcon" in
  let rightIcon := get props "rightIcon" in
  let children := get props "children" in
  let iconSpacing := get props "iconSpacing" in
  let shouldWrapChildren := get props "shouldWrapChildren" in
  if negb (truthy shouldWrapChildren) then
    jsx Fragment []
      [ and_ leftIcon (ButtonIcon [Field "marginEnd" iconSpacing] [leftIcon]);
        children;
        and_ rightIcon (ButtonIcon [Field "marginStart" iconSpacing] [rightIcon]) ]
  else
    jsx (Host "span") [Field "style" (VObj (object [Field "display" (VStr "contents")]))]
      [ and_ leftIcon (ButtonIcon [Field "marginEnd" iconSpacing] [leftIcon]);
        children;
        and_ rightIcon (ButtonIcon [Field "marginStart" iconSpacing] [rightIcon]) ].

(** ** [Button] (lines 35-137) *)

(** The names bound by the destructuring pattern of lines 40-56, in order. *)
Definition buttonOptions : list string :=
  [ "isDisabled"; "isLoading"; "isActive"; "children"; "leftIcon"; "rightIcon";
    "loadingText"; "iconSpacing"; "type"; "spinner"; "spinnerPlacement";
    "className"; "as"; "shouldWrapChildren" ].

(** The variables that pattern binds. *)
Record locals : Type := Locals {
  isDisabled : value;
  isLoading : value;
  isActive : value;
  children : value;
  leftIcon : value;
  rightIcon : value;
  loadingText : value;
  iconSpacing : value;
  type_ : value;
  spinner : value;
  spinnerPlacement : value;
  className : value;
  as_ : value;
  shouldWrapChildren : value;
  rest : obj
}.

Definition destructure (group : option obj) (props : obj) : locals :=
  let p := omitThemingProps props in
  {| isDisabled := get_default p "isDisabled" (group_get group "isDisabled");
     isLoading := get p "isLoading";
     isActive := get p "isActive";
     children := get p "children";
     leftIcon := get p "leftIcon";
     rightIcon := get p "rightIcon";
     loadingText := get p "loadingText";
     iconSpacing := get_default p "iconSpacing" (VStr "0.5rem");
     type_ := get p "type";
     spinner := get p "spinner";
     spinnerPlacement := get_default p "spinnerPlacement" (VStr "start");
     className := get p "className";
     as_ := get p "as";
     shouldWrapChildren := get p "shouldWrapChildren";
     rest := omit buttonOptions p |}.

(** The structural defaults of lines 68-76. *)
Definition baseStyles : list entry :=
  [ Field "display" (VStr "inline-flex");
    Field "appearance" (VStr "none");
    Field "alignItems" (VStr "center");
    Field "justifyContent" (VStr "center");
    Field "userSelect" (VStr "none");
    Field "position" (VStr "relative");
    Field "whiteSpace" (VStr "nowrap");
    Field "verticalAlign" (VStr "middle");
    Field "outline" (VStr "none") ].

(** [_focus] of line 66. *)
Definition focusStyles (styles : obj) : obj :=
  object [Spread (spread (get styles "_focus")); Field "zIndex" (VNum 1)].

(** The memoised style object of lines 64-80, a function of its two
    dependencies. *)
Definition buttonStyles (styles : obj) (group : option obj) : obj :=
  let _focus := focusStyles styles in
  object (baseStyles ++
          [ Spread styles;
            Spread (spread (and_ (not_ (not_ (group_value group)))
                                 (VObj (object [Field "_focus" (VObj _focus)])))) ]).

(** Lines 84-90. *)
Definition contentProps (l : locals) : obj :=
  object [ Field "rightIcon" (rightIcon l);
           Field "leftIcon" (leftIcon l);
           Field "iconSpacing" (iconSpacing l);
           Field "children" (children l);
           Field "shouldWrapChildren" (shouldWrapChildren l) ].

Definition ButtonSpinner (attrs : list entry) (children : list value) : value :=
  jsx (Component "ButtonSpinner") attrs children.

(** The three children of the root, lines 104-134.  [<ButtonContent />] is a
    function component of this file and stands for what it returns. *)
Definition spinnerStart (l : locals) : value :=
  and_ (and_ (isLoading l) (strict_eq_str (spinnerPlacement l) "start"))
       (ButtonSpinner [ Field "className" (VStr "chakra-button__spinner--start");
                        Field "label" (loadingText l);
                        Field "placement" (VStr "start");
                        Field "spacing" (iconSpacing l) ]
                      [spinner l]).

Definition body (l : locals) : value :=
  if truthy (isLoading l) then
    or_ (loadingText l)
        (jsx (Chakra "span") [Field "opacity" (VNum 0)] [ButtonContent (contentProps l)])
  else ButtonContent (contentProps l).

Definition spinnerEnd (l : locals) : value :=
  and_ (and_ (isLoading l) (strict_eq_str (spinnerPlacement l) "end"))
       (ButtonSpinner [ Field "className" (VStr "chakra-button__spinner--end");
                        Field "label" (loadingText l);
                        Field "placement" (VStr "end");
                        Field "spacing" (iconSpacing l) ]
                      [spinner l]).

(** The bag handed to the theme engine on line 38,
    [{ ...group, ...styleProps }]. *)
Definition styleConfigProps (group : option obj) (styleProps : obj) : obj :=
  object [Spread (spread (group_value group)); Spread styleProps].

Definition Button (h : hooks) (props : obj) (ref : value) : value :=
  let group := useButtonGroup h in
  let styleProps := omitValidElementProps props in
  let styles := useStyleConfig h "Button" (styleConfigProps group styleProps) in
  let l := destructure group props in
  let buttonStyles := buttonStyles styles group in
  let t := useButtonType h (as_ l) in
  let _ref := get t "ref" in
  let defaultType := get t "type" in
  jsx (Chakra "button")
    [ Field "disabled" (or_ (isDisabled l) (isLoading l));
      Field "ref" (useMergeRefs h ref _ref);
      Field "as" (as_ l);
      Field "type" (nullish (type_ l) defaultType);
      Field "data-active" (dataAttr (isActive l));
      Field "data-loading" (dataAttr (isLoading l));
      Field "__css" (VObj buttonStyles);
      Field "className" (VStr (cx [VStr "chakra-button"; className l]));
      Spread (rest l) ]
    [ spinnerStart l; body l; spinnerEnd l ].

(** ** Typing of the boolean options

    [isDisabled], of the props and of the group, is declared
    [boolean | undefined]. *)
Definition opt_bool (v : value) : bool :=
  match v with VUndefined | VBool _ => true | _ => false end.

(** ** Sample collaborators and inputs *)

Module Sample.

(** No group, an empty theme. *)
Definition plain : hooks :=
  Hooks None (λ _ _, ∅) (λ _, object [Field "type" (VStr "button")]) (λ a _, a).

(** Inside a group, with a theme that styles the focus ring. *)
Definition grouped : hooks :=
  Hooks (Some (object [Field "isDisabled" (VBool true); Field "size" (VStr "sm")]))
        (λ _ _, object [ Field "display" (VStr "flex");
                         Field "_focus" (VObj (object [Field "boxShadow" (VStr "outline")])) ])
        (λ _, object [Field "type" (VStr "button")])
        (λ a _, a).

Definition icon (name : string) : value :=
  jsx (Host "svg") [Field "name" (VStr name)] [].

Definition label : value := VStr "Save".

End Sample.

(** ** Vocabulary of the statements *)

(** The value an object literal holds at a key is found by running over its
    entries from the left, each matching entry replacing what was found
    before. *)
Definition pick (k : string) (found : option value) (e : entry) : option value :=
  match e with
  | Field j v => if decide (j = k) then Some v else found
  | Spread o => match o !! k with Some v => Some v | None => found end
  end.

(** The two values of [spinnerPlacement]. *)
Inductive placement : Type := AtStart | AtEnd.

Definition placement_name (pl : placement) : string :=
  match pl with AtStart => "start" | AtEnd => "end" end.

(** The spinner element a loading button shows at [pl], read off the props. *)
Definition spinnerAt (pl : placement) (props : obj) : value :=
  ButtonSpinner
    [ Field "className" (VStr ("chakra-button__spinner--" ++ placement_name pl));
      Field "label" (get props "loadingText");
      Field "placement" (VStr (placement_name pl));
      Field "spacing" (get_default props "iconSpacing" (VStr "0.5rem")) ]
    [get props "spinner"].

(** The children of a loading root around a given middle child, read off the
    props: neither spinner slot looks at [children]. *)
Definition loading_frame (props : obj) (middle : value) : list value :=
  [ and_ (strict_eq_str (get_default props "spinnerPlacement" (VStr "start")) "start")
         (spinnerAt AtStart props);
    middle;
    and_ (strict_eq_str (get_default props "spinnerPlacement" (VStr "start")) "end")
         (spinnerAt AtEnd props) ].

(** The zero-opacity container of lines 117-119. *)
Definition hidden (content : value) : value :=
  jsx (Chakra "span") [Field "opacity" (VNum 0)] [content].

(** [leftIcon] and [rightIcon] are declared [React.ReactElement | undefined]. *)
Definition opt_element (v : value) : bool :=
  match v with VUndefined | VElem _ _ _ => true | _ => false end.

(** The node an icon slot yields: a [ButtonIcon] around a supplied icon,
    spaced on the given edge, and nothing for an omitted one. *)
Definition icon_nodes (edge : string) (spacing icon : value) : list value :=
  if isValidElement icon then [ButtonIcon [Field edge spacing] [icon]] else [].

(** The merge the specification describes: layers listed in increasing
    precedence, a later layer prevailing on the keys it defines. *)
Definition merge_increasing (layers : list obj) : obj :=
  foldl (λ merged layer, layer ∪ merged) ∅ layers.

(** The focus-ring layer: the theme's focus style with [zIndex] set to 1
    inside a group, nothing outside. *)
Definition focus_override (styles : obj) (group : option obj) : obj :=
  match group with
  | Some _ => {[ "_focus" := VObj (<["zIndex" := VNum 1]> (spread (get styles "_focus"))) ]}
  | None => ∅
  end.

(** ** General facts about bags *)

Section bags.
Implicit Types (o acc : obj) (k : string) (v : value).

Lemma get_lookup_Some o k v : o !! k = Some v → get o k = v.
Proof. unfold get. by intros ->. Qed.

Lemma lookup_omit_ne keys o k : k ∉ keys → omit keys o !! k = o !! k.
Proof.
  induction keys as [|j keys IH]; simpl; [done|].
  intros [Hj Hk]%not_elem_of_cons.
  rewrite lookup_delete_ne; auto.
Qed.

Lemma lookup_omit_elem keys o k : k ∈ keys → omit keys o !! k = None.
Proof.
  induction keys as [|j keys IH]; simpl; [by intros ?%elem_of_nil|].
  destruct (decide (j = k)) as [->|Hne].
  - intros _. apply lookup_delete_eq.
  - intros [?|?]%elem_of_cons; [congruence|].
    rewrite lookup_delete_ne; auto.
Qed.

Lemma lookup_omit keys o k :
  omit keys o !! k = if decide (k ∈ keys) then None else o !! k.
Proof.
  case_decide; [by apply lookup_omit_elem | by apply lookup_omit_ne].
Qed.

Lemma get_omit_ne keys o k : k ∉ keys → get (omit keys o) k = get o k.
Proof. intros. unfold get. by rewrite lookup_omit_ne. Qed.

Lemma lookup_put_field acc j v k :
  put acc (Field j v) !! k = if decide (j = k) then Some v else acc !! k.
Proof. simpl. apply lookup_insert. Qed.

Lemma lookup_put_spread acc o k :
  put acc (Spread o) !! k = match o !! k with Some v => Some v | None => acc !! k end.
Proof.
  simpl. rewrite lookup_union. destruct (o !! k), (acc !! k); done.
Qed.

End bags.

(** ** Reading an object literal *)

Lemma lookup_foldl_put (es : list entry) (acc : obj) (k : string) :
  foldl put acc es !! k = foldl (pick k) (acc !! k) es.
Proof.
  revert acc. induction es as [|e es IH]; intros acc; simpl; [done|].
  rewrite IH. f_equal.
  destruct e as [j v|o]; [apply lookup_put_field | apply lookup_put_spread].
Qed.

Lemma lookup_object (es : list entry) (k : string) :
  object es !! k = foldl (pick k) None es.
Proof. unfold object. by rewrite lookup_foldl_put, lookup_empty. Qed.

(** Literal keys are compared by computation. *)
Ltac key_fresh := by (apply (bool_decide_unpack _); vm_compute).

Ltac read_literal :=
  rewrite ?lookup_object; cbn [foldl pick app];
  repeat (first [ rewrite decide_True by reflexivity
                | rewrite decide_False by discriminate ]).

(** ** The variables of the destructuring pattern *)

Section destructuring.
Variables (group : option obj) (props : obj).
Let l := destructure group props.

Lemma get_omitThemingProps k :
  k ∉ themingProps → get (omitThemingProps props) k = get props k.
Proof. apply get_omit_ne. Qed.

Lemma isLoading_eq : isLoading l = get props "isLoading".
Proof. apply get_omitThemingProps. key_fresh. Qed.

Lemma isActive_eq : isActive l = get props "isActive".
Proof. apply get_omitThemingProps. key_fresh. Qed.

Lemma children_eq : children l = get props "children".
Proof. apply get_omitThemingProps. key_fresh. Qed.

Lemma leftIcon_eq : leftIcon l = get props "leftIcon".
Proof. apply get_omitThemingProps. key_fresh. Qed.

Lemma rightIcon_eq : rightIcon l = get props "rightIcon".
Proof. apply get_omitThemingProps. key_fresh. Qed.

Lemma loadingText_eq : loadingText l = get props "loadingText".
Proof. apply get_omitThemingProps. key_fresh. Qed.

Lemma spinner_eq : spinner l = get props "spinner".
Proof. apply get_omitThemingProps. key_fresh. Qed.

Lemma className_eq : className l = get props "className".
Proof. apply get_omitThemingProps. key_fresh. Qed.

Lemma shouldWrapChildren_eq : shouldWrapChildren l = get props "shouldWrapChildren".
Proof. apply get_omitThemingProps. key_fresh. Qed.

Lemma isDisabled_eq :
  isDisabled l = get_default props "isDisabled" (group_get group "isDisabled").
Proof.
  unfold l, destructure, get_default; simpl.
  rewrite get_omitThemingProps; [done | key_fresh].
Qed.

Lemma iconSpacing_eq : iconSpacing l = get_default props "iconSpacing" (VStr "0.5rem").
Proof.
  unfold l, destructure, get_default; simpl.
  rewrite get_omitThemingProps; [done | key_fresh].
Qed.

Lemma spinnerPlacement_eq :
  spinnerPlacement l = get_default props "spinnerPlacement" (VStr "start").
Proof.
  unfold l, destructure, get_default; simpl.
  rewrite get_omitThemingProps; [done | key_fresh].
Qed.

(** The passthrough properties: the input without the theming properties
    and without the names the pattern binds. *)
Lemma lookup_rest k :
  rest l !! k =
    if decide (k ∈ (buttonOptions ++ themingProps)%list) then None else props !! k.
Proof.
  unfold l, destructure, omitThemingProps; cbn [rest].
  rewrite !lookup_omit.
  destruct (decide (k ∈ buttonOptions)) as [Ho|Ho].
  - rewrite decide_True; [done | apply elem_of_app; by left].
  - destruct (decide (k ∈ themingProps)) as [Ht|Ht].
    + rewrite decide_True; [done | apply elem_of_app; by right].
    + rewrite decide_False; [done | by intros [?|?]%elem_of_app].
Qed.

End destructuring.

(** The attributes of the root: a passthrough property wins over the
    attribute [Button] computes under the same name. *)
Lemma lookup_root (h : hooks) (props : obj) (ref : value) (k : string) :
  let l := destructure (useButtonGroup h) props in
  let styles :=
    useStyleConfig h "Button"
      (styleConfigProps (useButtonGroup h) (omitValidElementProps props)) in
  let t := useButtonType h (as_ l) in
  elem_props (Button h props ref) !! k =
    match rest l !! k with
    | Some v => Some v
    | None =>
        object [ Field "disabled" (or_ (isDisabled l) (isLoading l));
                 Field "ref" (useMergeRefs h ref (get t "ref"));
                 Field "as" (as_ l);
                 Field "type" (nullish (type_ l) (get t "type"));
                 Field "data-active" (dataAttr (isActive l));
                 Field "data-loading" (dataAttr (isLoading l));
                 Field "__css" (VObj (buttonStyles styles (useButtonGroup h)));
                 Field "className" (VStr (cx [VStr "chakra-button"; className l])) ] !! k
    end.
Proof.
  intros l styles t. unfold Button, jsx. cbn [elem_props].
  rewrite !lookup_object. cbn [foldl pick]. done.
Qed.

(** ** The disabled attribute of the root (line 94) *)

Lemma or_opt_bool_true (d : value) :
  opt_bool d = true → or_ d (VBool true) = VBool true.
Proof. by destruct d as [| |[]| | | |]. Qed.

Lemma get_default_opt_bool (o : obj) (k : string) (d : value) :
  opt_bool (get o k) = true → opt_bool d = true → opt_bool (get_default o k d) = true.
Proof. unfold get_default. by destruct (get o k). Qed.

(** C1, as the code has it: for every input with [isLoading = true] that
    passes no [disabled] attribute of its own through to the root, the root
    carries [disabled = true], whatever [isDisabled] is (the caller's or the
    group's, both of type [boolean | undefined]). *)
Theorem loading_disables_root (h : hooks) (props : obj) (ref : value) :
  get props "isLoading" = VBool true →
  opt_bool (get props "isDisabled") = true →
  opt_bool (group_get (useButtonGroup h) "isDisabled") = true →
  props !! "disabled" = None →
  elem_props (Button h props ref) !! "disabled" = Some (VBool true).
Proof.
  intros Hloading Hd Hg Hnone.
  rewrite lookup_root, lookup_rest.
  rewrite decide_False by key_fresh. rewrite Hnone.
  read_literal.
  rewrite isLoading_eq, Hloading, isDisabled_eq.
  f_equal. apply or_opt_bool_true. by apply get_default_opt_bool.
Qed.

Lemma loading_disables_root_witness :
  elem_props
    (Button Sample.grouped
       (object [Field "isLoading" (VBool true); Field "isDisabled" (VBool false)])
       VNull) !! "disabled" = Some (VBool true).
Proof. apply loading_disables_root; vm_compute; reflexivity. Defined.

(** C1 as stated fails: the passthrough properties are spread after the
    computed attributes (line 102), so a [disabled] the caller passes
    replaces the computed one even while loading. *)
Lemma loading_disabled_overridden :
  let props := object [Field "isLoading" (VBool true); Field "disabled" (VBool false)] in
  get props "isLoading" = VBool true ∧
  elem_props (Button Sample.plain props VNull) !! "disabled" = Some (VBool false).
Proof. split; vm_compute; reflexivity. Qed.

(** ** The data attributes of the root (lines 98-99) *)

Lemma dom_data_attr_dataAttr (c : value) :
  dom_data_attr (dataAttr c) = if truthy c then Some EmptyString else None.
Proof. unfold dataAttr. by destruct (truthy c). Qed.

(** C4, as the code has it: for every input that passes no [data-active]
    and no [data-loading] attribute of its own through to the root, each of
    the two attributes is written (as the empty marker) exactly when its flag
    is truthy, and is absent otherwise. *)
Theorem data_attributes_follow_flags (h : hooks) (props : obj) (ref : value) :
  props !! "data-active" = None →
  props !! "data-loading" = None →
  dom_data_attr (get (elem_props (Button h props ref)) "data-active")
    = (if truthy (get props "isActive") then Some EmptyString else None) ∧
  dom_data_attr (get (elem_props (Button h props ref)) "data-loading")
    = (if truthy (get props "isLoading") then Some EmptyString else None).
Proof.
  intros Ha Hl. split.
  - erewrite get_lookup_Some; [apply dom_data_attr_dataAttr|].
    rewrite lookup_root, lookup_rest.
    rewrite decide_False by key_fresh. rewrite Ha.
    read_literal. by rewrite isActive_eq.
  - erewrite get_lookup_Some; [apply dom_data_attr_dataAttr|].
    rewrite lookup_root, lookup_rest.
    rewrite decide_False by key_fresh. rewrite Hl.
    read_literal. by rewrite isLoading_eq.
Qed.

Lemma data_attributes_follow_flags_witness :
  let root := Button Sample.plain (object [Field "isActive" (VBool true)]) VNull in
  dom_data_attr (get (elem_props root) "data-active") = Some EmptyString ∧
  dom_data_attr (get (elem_props root) "data-loading") = None.
Proof.
  apply (data_attributes_follow_flags Sample.plain
           (object [Field "isActive" (VBool true)]) VNull);
    vm_compute; reflexivity.
Defined.

(** C4 as stated fails: a [data-active] the caller passes through reaches
    the root although [isActive] is not set, here with the value false. *)
Lemma data_active_passthrough :
  let props := object [Field "data-active" (VStr "false")] in
  truthy (get props "isActive") = false ∧
  dom_data_attr (get (elem_props (Button Sample.plain props VNull)) "data-active")
    = Some "false".
Proof. split; vm_compute; reflexivity. Qed.

(** ** The class name of the root (line 101) *)

Lemma cx_chakra_button (c : value) :
  cx [VStr "chakra-button"; c] =
    if truthy c then "chakra-button " ++ to_string c else "chakra-button".
Proof. unfold cx. cbn. by destruct (truthy c). Qed.

(** C9: the class name of the root is always a string that starts with
    chakra-button; a class name the caller supplies follows it after one
    space, and nothing follows when none (or the empty one) is supplied. *)
Theorem root_className (h : hooks) (props : obj) (ref : value) :
  ∃ cls : string,
    elem_props (Button h props ref) !! "className" = Some (VStr cls) ∧
    (∃ tail, cls = "chakra-button" ++ tail) ∧
    (∀ c, get props "className" = VStr c →
          cls = if String.eqb c EmptyString then "chakra-button" else "chakra-button " ++ c) ∧
    (get props "className" = VUndefined → cls = "chakra-button").
Proof.
  eexists. split.
  - rewrite lookup_root, lookup_rest.
    rewrite decide_True by key_fresh.
    read_literal. reflexivity.
  - rewrite className_eq, cx_chakra_button. repeat split.
    + destruct (truthy (get props "className")); [by eexists | by exists EmptyString].
    + intros c ->. cbn. by destruct (String.eqb c EmptyString).
    + by intros ->.
Qed.

(** ** The children of the root (lines 104-134) *)

Lemma root_children (h : hooks) (props : obj) (ref : value) :
  let l := destructure (useButtonGroup h) props in
  elem_children (Button h props ref) = [spinnerStart l; body l; spinnerEnd l].
Proof. reflexivity. Qed.

Section loading.
Variables (h : hooks) (props : obj) (ref : value).
Hypothesis Hloading : get props "isLoading" = VBool true.
Let l := destructure (useButtonGroup h) props.

Lemma loading_spinnerStart :
  spinnerStart l =
    and_ (strict_eq_str (spinnerPlacement l) "start") (spinnerAt AtStart props).
Proof.
  unfold spinnerStart, spinnerAt, l.
  rewrite isLoading_eq, Hloading, loadingText_eq, iconSpacing_eq, spinner_eq.
  reflexivity.
Qed.

Lemma loading_spinnerEnd :
  spinnerEnd l =
    and_ (strict_eq_str (spinnerPlacement l) "end") (spinnerAt AtEnd props).
Proof.
  unfold spinnerEnd, spinnerAt, l.
  rewrite isLoading_eq, Hloading, loadingText_eq, iconSpacing_eq, spinner_eq.
  reflexivity.
Qed.

Lemma loading_body :
  body l =
    if truthy (get props "loadingText") then get props "loadingText"
    else jsx (Chakra "span") [Field "opacity" (VNum 0)] [ButtonContent (contentProps l)].
Proof.
  unfold body, l. rewrite isLoading_eq, Hloading, loadingText_eq. reflexivity.
Qed.

Lemma placement_given (pl : placement) :
  get props "spinnerPlacement" = VStr (placement_name pl) →
  spinnerPlacement l = VStr (placement_name pl).
Proof.
  intros Hpl. unfold l. rewrite spinnerPlacement_eq. unfold get_default. by rewrite Hpl.
Qed.

End loading.

Lemma loading_children_placed (h : hooks) (props : obj) (ref : value) (pl : placement) :
  get props "isLoading" = VBool true →
  get props "spinnerPlacement" = VStr (placement_name pl) →
  elem_children (Button h props ref)
    = match pl with
      | AtStart => [spinnerAt pl props; body (destructure (useButtonGroup h) props); VBool false]
      | AtEnd => [VBool false; body (destructure (useButtonGroup h) props); spinnerAt pl props]
      end.
Proof.
  intros Hloading Hpl.
  rewrite root_children, loading_spinnerStart, loading_spinnerEnd by done.
  rewrite (placement_given h props pl Hpl).
  by destruct pl.
Qed.

Lemma spinnerAt_attributes (pl : placement) (props : obj) :
  elem_type (spinnerAt pl props) = Some (Component "ButtonSpinner") ∧
  get (elem_props (spinnerAt pl props)) "label" = get props "loadingText" ∧
  get (elem_props (spinnerAt pl props)) "spacing"
    = get_default props "iconSpacing" (VStr "0.5rem").
Proof.
  repeat split; unfold get, spinnerAt, ButtonSpinner, jsx;
    cbn [elem_props]; by read_literal.
Qed.

(** C5: while loading, the spinner is the child before the content for
    placement start and the child after it for placement end; the other slot
    holds [false], for which no node is created.  The spinner carries
    [loadingText] as its label and [iconSpacing] as its spacing. *)
Theorem spinner_placement (h : hooks) (props : obj) (ref : value) (pl : placement) :
  get props "isLoading" = VBool true →
  get props "spinnerPlacement" = VStr (placement_name pl) →
  let content := body (destructure (useButtonGroup h) props) in
  let spinnerNode := spinnerAt pl props in
  elem_children (Button h props ref)
    = match pl with
      | AtStart => [spinnerNode; content; VBool false]
      | AtEnd => [VBool false; content; spinnerNode]
      end ∧
  child_nodes (elem_children (Button h props ref))
    = match pl with
      | AtStart => spinnerNode :: child_nodes [content]
      | AtEnd => (child_nodes [content] ++ [spinnerNode])%list
      end ∧
  elem_type spinnerNode = Some (Component "ButtonSpinner") ∧
  get (elem_props spinnerNode) "label" = get props "loadingText" ∧
  get (elem_props spinnerNode) "spacing" = get_default props "iconSpacing" (VStr "0.5rem").
Proof.
  intros Hloading Hpl content spinnerNode.
  pose proof (loading_children_placed h props ref pl Hloading Hpl) as Hchildren.
  fold content spinnerNode in Hchildren.
  split; [done|]. split.
  - rewrite Hchildren. destruct pl; cbn; [done|].
    by destruct (renders_nothing content).
  - apply spinnerAt_attributes.
Qed.

Lemma spinner_placement_witness :
  let props := object [ Field "isLoading" (VBool true);
                        Field "spinnerPlacement" (VStr "end");
                        Field "loadingText" (VStr "Saving");
                        Field "children" Sample.label ] in
  child_nodes (elem_children (Button Sample.plain props VNull))
    = [VStr "Saving"; spinnerAt AtEnd props].
Proof.
  intros props.
  destruct (spinner_placement Sample.plain props VNull AtEnd) as (_ & Hnodes & _);
    [vm_compute; reflexivity .. |].
  rewrite Hnodes. vm_compute. reflexivity.
Defined.

(** ** [ButtonContent] *)

Lemma ButtonContent_children (props : obj) :
  elem_children (ButtonContent props) =
    [ and_ (get props "leftIcon")
        (ButtonIcon [Field "marginEnd" (get props "iconSpacing")] [get props "leftIcon"]);
      get props "children";
      and_ (get props "rightIcon")
        (ButtonIcon [Field "marginStart" (get props "iconSpacing")] [get props "rightIcon"]) ].
Proof. unfold ButtonContent. by destruct (negb _). Qed.

Lemma ButtonContent_type (props : obj) :
  elem_type (ButtonContent props) =
    Some (if truthy (get props "shouldWrapChildren") then Host "span" else Fragment).
Proof. unfold ButtonContent. by destruct (truthy _). Qed.

Lemma ButtonContent_props (props : obj) :
  elem_props (ButtonContent props) =
    if truthy (get props "shouldWrapChildren")
    then object [Field "style" (VObj (object [Field "display" (VStr "contents")]))]
    else ∅.
Proof. unfold ButtonContent. by destruct (truthy _). Qed.

(** C6: [ButtonContent] returns a fragment when [shouldWrapChildren] is
    falsy and one display-contents span when it is truthy; in both cases the
    nodes inside are, in order, the leading icon with trailing-edge spacing
    [iconSpacing], the children, and the trailing icon with leading-edge
    spacing [iconSpacing], an omitted icon giving no node. *)
Theorem ButtonContent_layout (props : obj) :
  opt_element (get props "leftIcon") = true →
  opt_element (get props "rightIcon") = true →
  let X := get props "leftIcon" in
  let Y := get props "rightIcon" in
  let Z := get props "children" in
  let spacing := get props "iconSpacing" in
  let out := ButtonContent props in
  (if truthy (get props "shouldWrapChildren")
   then elem_type out = Some (Host "span") ∧
        get (elem_props out) "style" = VObj {[ "display" := VStr "contents" ]}
   else elem_type out = Some Fragment ∧ elem_props out = ∅) ∧
  child_nodes (elem_children out)
    = (icon_nodes "marginEnd" spacing X ++ child_nodes [Z]
         ++ icon_nodes "marginStart" spacing Y)%list ∧
  (isValidElement X = true → isValidElement Y = true →
   elem_children out
     = [ jsx (Component "ButtonIcon") [Field "marginEnd" spacing] [X];
         Z;
         jsx (Component "ButtonIcon") [Field "marginStart" spacing] [Y] ]).
Proof.
  intros HX HY X Y Z spacing out. split; [|split].
  - unfold out. rewrite ButtonContent_type, ButtonContent_props.
    destruct (truthy _); split; try done.
  - unfold out. rewrite ButtonContent_children. fold X Y Z spacing.
    change (opt_element X = true) in HX. change (opt_element Y = true) in HY.
    clearbody X Y Z spacing. unfold icon_nodes.
    destruct X; try discriminate HX; destruct Y; try discriminate HY; cbn;
      by destruct (renders_nothing Z).
  - unfold out. rewrite ButtonContent_children. fold X Y Z spacing.
    clearbody X Y Z spacing. intros HXe HYe.
    destruct X; try discriminate HXe; destruct Y; try discriminate HYe. done.
Qed.

Lemma ButtonContent_layout_witness :
  let props := object [ Field "leftIcon" (Sample.icon "add");
                        Field "children" Sample.label;
                        Field "iconSpacing" (VStr "4px");
                        Field "shouldWrapChildren" (VBool true) ] in
  child_nodes (elem_children (ButtonContent props))
    = [ jsx (Component "ButtonIcon") [Field "marginEnd" (VStr "4px")] [Sample.icon "add"];
        Sample.label ].
Proof.
  intros props.
  destruct (ButtonContent_layout props) as (_ & Hnodes & _);
    [vm_compute; reflexivity .. |].
  rewrite Hnodes. vm_compute. reflexivity.
Defined.

(** What [Button] hands to [ButtonContent]. *)
Lemma get_contentProps (group : option obj) (props : obj) :
  let cp := contentProps (destructure group props) in
  get cp "leftIcon" = get props "leftIcon" ∧
  get cp "rightIcon" = get props "rightIcon" ∧
  get cp "children" = get props "children" ∧
  get cp "iconSpacing" = get_default props "iconSpacing" (VStr "0.5rem") ∧
  get cp "shouldWrapChildren" = get props "shouldWrapChildren".
Proof.
  intros cp. unfold cp, contentProps, get at 1 3 5 7 9.
  repeat split; read_literal; cbn [default].
  - apply leftIcon_eq.
  - apply rightIcon_eq.
  - apply children_eq.
  - apply iconSpacing_eq.
  - apply shouldWrapChildren_eq.
Qed.

Lemma content_holds_children (group : option obj) (props : obj) :
  elem_children (ButtonContent (contentProps (destructure group props))) !! 1%nat
    = Some (get props "children").
Proof.
  rewrite ButtonContent_children. cbn [lookup list_lookup].
  destruct (get_contentProps group props) as (_ & _ & -> & _). done.
Qed.

(** ** The body of a loading button (lines 115-123) *)

Lemma loading_children (h : hooks) (props : obj) (ref : value) :
  get props "isLoading" = VBool true →
  elem_children (Button h props ref)
    = loading_frame props (body (destructure (useButtonGroup h) props)).
Proof.
  intros Hloading.
  rewrite root_children, loading_spinnerStart, loading_spinnerEnd by done.
  by rewrite spinnerPlacement_eq.
Qed.

Lemma get_insert_ne (o : obj) (j k : string) (v : value) :
  j ≠ k → get (<[j := v]> o) k = get o k.
Proof. intros. unfold get. by rewrite lookup_insert_ne. Qed.

Lemma loading_frame_children (props : obj) (c middle : value) :
  loading_frame (<["children" := c]> props) middle = loading_frame props middle.
Proof.
  unfold loading_frame, spinnerAt, get_default.
  by rewrite !get_insert_ne.
Qed.

(** C2, as the code has it: while loading, a non-empty [loadingText] is the
    middle child of the root and the root's children are the same whatever
    [children] is; a [loadingText] that is undefined or empty leaves, as the
    middle child, the zero-opacity span around [ButtonContent], whose second
    child is the original [children]. *)
Theorem loading_body_content (h : hooks) (props : obj) (ref : value) :
  get props "isLoading" = VBool true →
  let l := destructure (useButtonGroup h) props in
  (∀ s, get props "loadingText" = VStr s → s ≠ EmptyString →
     elem_children (Button h props ref) !! 1%nat = Some (VStr s) ∧
     ∀ c, elem_children (Button h (<["children" := c]> props) ref)
          = elem_children (Button h props ref)) ∧
  (truthy (get props "loadingText") = false →
     elem_children (Button h props ref) !! 1%nat
       = Some (hidden (ButtonContent (contentProps l))) ∧
     get (elem_props (hidden (ButtonContent (contentProps l)))) "opacity" = VNum 0 ∧
     elem_children (ButtonContent (contentProps l)) !! 1%nat
       = Some (get props "children")).
Proof.
  intros Hloading l. split.
  - intros s Hs Hne.
    assert (truthy (VStr s) = true) as Htruthy.
    { cbn. by destruct (String.eqb_spec s EmptyString). }
    assert (∀ props', get props' "isLoading" = VBool true →
                      get props' "loadingText" = VStr s →
                      elem_children (Button h props' ref)
                      = loading_frame props' (VStr s)) as Hframe.
    { intros props' Hl' Hs'.
      by rewrite loading_children, loading_body, Hs', Htruthy. }
    split.
    + by rewrite Hframe.
    + intros c. rewrite !Hframe; try done.
      * apply loading_frame_children.
      * by rewrite get_insert_ne.
      * by rewrite get_insert_ne.
  - intros Hfalsy. split; [|split].
    + rewrite loading_children, loading_body by done.
      by rewrite Hfalsy.
    + done.
    + apply content_holds_children.
Qed.

Lemma loading_body_content_witness :
  let props := object [ Field "isLoading" (VBool true);
                        Field "loadingText" (VStr "Saving");
                        Field "children" Sample.label ] in
  elem_children (Button Sample.plain props VNull) !! 1%nat = Some (VStr "Saving").
Proof.
  intros props.
  destruct (loading_body_content Sample.plain props VNull) as [Htext _];
    [vm_compute; reflexivity |].
  apply (Htext "Saving"); [vm_compute; reflexivity | discriminate].
Defined.

(** C2 as stated fails for a [loadingText] that is provided but empty: the
    middle child is then the hidden container with the original children,
    not the text. *)
Lemma empty_loadingText_keeps_children :
  let props := object [ Field "isLoading" (VBool true);
                        Field "loadingText" (VStr EmptyString);
                        Field "children" Sample.label ] in
  get props "isLoading" = VBool true ∧
  get props "loadingText" = VStr EmptyString ∧
  elem_children (Button Sample.plain props VNull) !! 1%nat
    = Some (hidden (jsx Fragment [] [VUndefined; Sample.label; VUndefined])).
Proof. repeat split; vm_compute; reflexivity. Qed.

(** C10: for every loading button, whatever its [spinnerPlacement] (left
    out included), the middle child is chosen by the truthiness of
    [loadingText].  For the empty string it is the zero-opacity span around
    [ButtonContent] with the original children, exactly as for an absent
    [loadingText], and the spinner, in whichever slot it is shown, is still
    handed the empty string as its label. *)
Theorem empty_loadingText_body (h : hooks) (props : obj) (ref : value) :
  get props "isLoading" = VBool true →
  let l := destructure (useButtonGroup h) props in
  let wrapper := hidden (ButtonContent (contentProps l)) in
  elem_children (Button h props ref) !! 1%nat
    = Some (if truthy (get props "loadingText") then get props "loadingText" else wrapper) ∧
  (get props "loadingText" = VUndefined →
     elem_children (Button h props ref) !! 1%nat = Some wrapper) ∧
  (get props "loadingText" = VStr EmptyString →
     elem_children (Button h props ref) !! 1%nat = Some wrapper ∧
     elem_children (Button h props ref) = loading_frame props wrapper ∧
     (get props "spinnerPlacement" = VUndefined →
      elem_children (Button h props ref) = [spinnerAt AtStart props; wrapper; VBool false]) ∧
     (∀ pl, get props "spinnerPlacement" = VStr (placement_name pl) →
            elem_children (Button h props ref)
            = match pl with
              | AtStart => [spinnerAt pl props; wrapper; VBool false]
              | AtEnd => [VBool false; wrapper; spinnerAt pl props]
              end) ∧
     elem_children (ButtonContent (contentProps l)) !! 1%nat = Some (get props "children") ∧
     (∀ pl, elem_type (spinnerAt pl props) = Some (Component "ButtonSpinner") ∧
            get (elem_props (spinnerAt pl props)) "label" = VStr EmptyString)).
Proof.
  intros Hloading l wrapper.
  pose proof (loading_body h props Hloading) as Hbody.
  pose proof (loading_children h props ref Hloading) as Hchildren.
  rewrite Hbody in Hchildren. fold l wrapper in Hchildren.
  split; [|split].
  - by rewrite Hchildren.
  - intros Habsent. rewrite Hchildren, Habsent. done.
  - intros Hempty. rewrite Hempty in Hchildren. cbn [truthy String.eqb negb] in Hchildren.
    split; [by rewrite Hchildren|]. split; [done|]. split; [|split; [|split]].
    + intros Hpl. rewrite Hchildren. unfold loading_frame, get_default. by rewrite Hpl.
    + intros pl Hpl. rewrite Hchildren. unfold loading_frame, get_default. rewrite Hpl.
      by destruct pl.
    + apply content_holds_children.
    + intros pl. destruct (spinnerAt_attributes pl props) as (Hty & Hlabel & _).
      split; [done|]. by rewrite Hlabel.
Qed.

Lemma empty_loadingText_body_witness :
  let props := object [ Field "isLoading" (VBool true);
                        Field "loadingText" (VStr EmptyString);
                        Field "children" Sample.label ] in
  elem_children (Button Sample.plain props VNull)
    = [ spinnerAt AtStart props;
        hidden (jsx Fragment [] [VUndefined; Sample.label; VUndefined]);
        VBool false ] ∧
  get (elem_props (spinnerAt AtStart props)) "label" = VStr EmptyString.
Proof.
  intros props.
  destruct (empty_loadingText_body Sample.plain props VNull)
    as (_ & _ & Hempty); [vm_compute; reflexivity |].
  destruct Hempty as (_ & _ & Hdefault & _ & _ & Hlabel); [vm_compute; reflexivity |].
  split.
  - rewrite Hdefault; vm_compute; reflexivity.
  - apply (Hlabel AtStart).
Defined.

(** ** The style object (lines 64-80) *)

Lemma focusStyles_eq (styles : obj) :
  focusStyles styles = <["zIndex" := VNum 1]> (spread (get styles "_focus")).
Proof. unfold focusStyles, object. cbn [foldl put]. by rewrite (right_id_L ∅ (∪)). Qed.

Lemma group_spread_eq (styles : obj) (group : option obj) :
  spread (and_ (not_ (not_ (group_value group)))
               (VObj (object [Field "_focus" (VObj (focusStyles styles))])))
  = focus_override styles group.
Proof. rewrite focusStyles_eq. by destruct group. Qed.

Lemma buttonStyles_union (styles : obj) (group : option obj) :
  buttonStyles styles group = focus_override styles group ∪ (styles ∪ object baseStyles).
Proof.
  unfold buttonStyles. rewrite group_spread_eq.
  unfold object. rewrite foldl_app. reflexivity.
Qed.

Lemma lookup_focus_override_ne (styles : obj) (group : option obj) (k : string) :
  k ≠ "_focus" → focus_override styles group !! k = None.
Proof. intros. destruct group; cbn; [by rewrite lookup_singleton_ne | done]. Qed.

(** C7: the style object is the merge, in increasing precedence, of the
    structural defaults, the theme's style for Button and the focus-ring
    layer.  That layer sets [_focus] to the theme's focus style with
    [zIndex] 1 exactly when there is a group; without a group [_focus] is
    the theme's, untouched.  The defaults give the inline-flex layout,
    centred content, no outline and relative positioning. *)
Theorem buttonStyles_layers (styles : obj) (group : option obj) :
  buttonStyles styles group
    = merge_increasing [object baseStyles; styles; focus_override styles group] ∧
  (∀ k, buttonStyles styles group !! k =
        match focus_override styles group !! k with
        | Some v => Some v
        | None => match styles !! k with
                  | Some v => Some v
                  | None => object baseStyles !! k
                  end
        end) ∧
  (∀ k, k ≠ "_focus" →
        buttonStyles styles group !! k =
        match styles !! k with Some v => Some v | None => object baseStyles !! k end) ∧
  buttonStyles styles group !! "_focus" =
    match group with
    | Some _ => Some (VObj (<["zIndex" := VNum 1]> (spread (get styles "_focus"))))
    | None => styles !! "_focus"
    end ∧
  object baseStyles !! "display" = Some (VStr "inline-flex") ∧
  object baseStyles !! "alignItems" = Some (VStr "center") ∧
  object baseStyles !! "justifyContent" = Some (VStr "center") ∧
  object baseStyles !! "outline" = Some (VStr "none") ∧
  object baseStyles !! "position" = Some (VStr "relative").
Proof.
  assert (∀ k, buttonStyles styles group !! k =
               match focus_override styles group !! k with
               | Some v => Some v
               | None => match styles !! k with
                         | Some v => Some v
                         | None => object baseStyles !! k
                         end
               end) as Hlookup.
  { intros k. rewrite buttonStyles_union, !lookup_union.
    destruct (focus_override styles group !! k), (styles !! k),
      (object baseStyles !! k); done. }
  split; [|split; [done|split; [|split]]].
  - rewrite buttonStyles_union. unfold merge_increasing. cbn [foldl].
    by rewrite (right_id_L ∅ (∪)).
  - intros k Hk. by rewrite Hlookup, lookup_focus_override_ne.
  - rewrite Hlookup. destruct group; cbn.
    + by rewrite lookup_singleton_eq.
    + rewrite lookup_empty. destruct (styles !! "_focus"); [done|].
      unfold baseStyles. by read_literal.
  - unfold baseStyles. repeat split; by read_literal.
Qed.

(** ** The fallbacks of the destructuring pattern (lines 40-56) *)

(** C8: an omitted [iconSpacing] is 0.5rem and an omitted
    [spinnerPlacement] is start.  [isDisabled] is the caller's when given,
    else the group's when there is a group, else [undefined]: the button
    then counts as not disabled, and with no [disabled] passed through the
    root is disabled exactly when it is loading. *)
Theorem option_fallbacks (h : hooks) (props : obj) (ref : value) :
  let l := destructure (useButtonGroup h) props in
  (get props "iconSpacing" = VUndefined → iconSpacing l = VStr "0.5rem") ∧
  (get props "spinnerPlacement" = VUndefined → spinnerPlacement l = VStr "start") ∧
  (get props "isDisabled" ≠ VUndefined → isDisabled l = get props "isDisabled") ∧
  (get props "isDisabled" = VUndefined →
     ∀ g, useButtonGroup h = Some g → isDisabled l = get g "isDisabled") ∧
  (get props "isDisabled" = VUndefined → useButtonGroup h = None →
     truthy (isDisabled l) = false ∧
     (props !! "disabled" = None →
      truthy (get (elem_props (Button h props ref)) "disabled")
        = truthy (get props "isLoading"))).
Proof.
  intros l. unfold l.
  rewrite iconSpacing_eq, spinnerPlacement_eq, isDisabled_eq. unfold get_default.
  split; [|split; [|split; [|split]]].
  - by intros ->.
  - by intros ->.
  - by destruct (get props "isDisabled").
  - intros -> g ->. done.
  - intros Hd Hg. split; [by rewrite Hd, Hg|].
    intros Hnone.
    erewrite get_lookup_Some.
    2:{ rewrite lookup_root, lookup_rest.
        rewrite decide_False by key_fresh. rewrite Hnone.
        read_literal. reflexivity. }
    rewrite isDisabled_eq, isLoading_eq. unfold get_default.
    by rewrite Hd, Hg.
Qed.

(** ** Element-valued properties (lines 25-27, 37-38 and 102) *)

Lemma lookup_omitValidElementProps (props : obj) (k : string) (v : value) :
  omitValidElementProps props !! k = Some v ↔
  props !! k = Some v ∧ isValidElement v = false.
Proof.
  unfold omitValidElementProps, objectFilter.
  rewrite map_lookup_filter_Some. cbn.
  by rewrite negb_true_iff.
Qed.

(** C3, as the code has it: the bag filtered of element-valued properties
    is the one handed to the theme engine, and holds exactly the
    properties of the input whose value is no element.  The properties
    spread onto the root are taken from the unfiltered input: the ones
    [Button] names, among them [children], [leftIcon], [rightIcon] and
    [spinner], do not reach the root, and every other property that is not
    a theming property is forwarded with the value it has. *)
Theorem element_props_filtered_for_styles (h : hooks) (props : obj) (ref : value) :
  (∀ k v, omitValidElementProps props !! k = Some v ↔
          props !! k = Some v ∧ isValidElement v = false) ∧
  (props !! "__css" = None →
   elem_props (Button h props ref) !! "__css" =
     Some (VObj (buttonStyles
                   (useStyleConfig h "Button"
                      (styleConfigProps (useButtonGroup h) (omitValidElementProps props)))
                   (useButtonGroup h)))) ∧
  (∀ k, k ∈ ["children"; "leftIcon"; "rightIcon"; "spinner"] →
        elem_props (Button h props ref) !! k = None) ∧
  (∀ k v, props !! k = Some v → k ∉ buttonOptions → k ∉ themingProps →
          elem_props (Button h props ref) !! k = Some v).
Proof.
  split; [|split; [|split]].
  - apply lookup_omitValidElementProps.
  - intros Hnone. rewrite lookup_root, lookup_rest.
    rewrite decide_False by key_fresh. rewrite Hnone.
    by read_literal.
  - intros k Hk. rewrite lookup_root, lookup_rest.
    repeat (apply elem_of_cons in Hk as [->|Hk];
            [rewrite decide_True by key_fresh; by read_literal|]).
    by apply elem_of_nil in Hk.
  - intros k v Hk Ho Ht. rewrite lookup_root, lookup_rest.
    rewrite decide_False by (by intros [?|?]%elem_of_app).
    by rewrite Hk.
Qed.

Lemma element_props_filtered_for_styles_witness :
  let props := object [ Field "leftIcon" (Sample.icon "add");
                        Field "aria-label" (VStr "Add");
                        Field "children" Sample.label ] in
  omitValidElementProps props
    = object [Field "aria-label" (VStr "Add"); Field "children" Sample.label] ∧
  elem_props (Button Sample.plain props VNull) !! "leftIcon" = None ∧
  elem_props (Button Sample.plain props VNull) !! "aria-label" = Some (VStr "Add").
Proof.
  intros props.
  destruct (element_props_filtered_for_styles Sample.plain props VNull)
    as (_ & _ & Hnamed & Hextra).
  split; [vm_compute; reflexivity|]. split.
  - apply Hnamed. apply (bool_decide_unpack _). vm_compute. exact I.
  - apply Hextra; [vm_compute; reflexivity | key_fresh | key_fresh].
Defined.

(** C3 as stated fails: an element-valued property that [Button] does not
    name is spread onto the root with the other passthrough properties. *)
Lemma element_prop_reaches_root :
  let tip := Sample.icon "info" in
  let props := object [Field "tooltip" tip; Field "children" Sample.label] in
  isValidElement tip = true ∧
  props !! "tooltip" = Some tip ∧
  elem_props (Button Sample.plain props VNull) !! "tooltip" = Some tip.
Proof. repeat split; vm_compute; reflexivity. Qed.

(** ** Further properties of [omitValidElementProps] (lines 25-27) *)

(** Filtering twice is filtering once, the result is a part of the input,
    and an input without element-valued properties is returned as it is. *)
Theorem omitValidElementProps_idempotent (props : obj) :
  omitValidElementProps (omitValidElementProps props) = omitValidElementProps props ∧
  omitValidElementProps props ⊆ props ∧
  ((∀ k v, props !! k = Some v → isValidElement v = false) →
   omitValidElementProps props = props).
Proof.
  split; [|split].
  - apply map_eq. intros k. apply option_eq. intros v.
    rewrite !lookup_omitValidElementProps. tauto.
  - apply map_subseteq_spec. intros k v.
    rewrite lookup_omitValidElementProps. tauto.
  - intros Hplain. apply map_eq. intros k. apply option_eq. intros v.
    rewrite lookup_omitValidElementProps. split; [tauto|].
    intros Hk. split; [done | by apply (Hplain k)].
Qed.

(** Setting a property to an element is, for the filtered bag, the same as
    removing the property. *)
Lemma omitValidElementProps_insert_element (props : obj) (k : string) (e : value) :
  isValidElement e = true →
  omitValidElementProps (<[k := e]> props) = omitValidElementProps (delete k props).
Proof.
  intros He. apply map_eq. intros i. apply option_eq. intros v.
  rewrite !lookup_omitValidElementProps.
  destruct (decide (k = i)) as [->|Hne].
  - rewrite lookup_insert_eq, lookup_delete_eq. split.
    + intros [[= <-] Hv]. congruence.
    + by intros [? _].
  - by rewrite lookup_insert_ne, lookup_delete_ne.
Qed.

(** Which element a property holds is invisible to style resolution: two
    inputs that differ only in the element one property holds hand the same
    bag to the theme engine, and their roots carry the same [__css]. *)
Theorem elements_invisible_to_styles
    (h : hooks) (props : obj) (ref : value) (k : string) (e1 e2 : value) :
  isValidElement e1 = true →
  isValidElement e2 = true →
  k ≠ "__css" →
  styleConfigProps (useButtonGroup h) (omitValidElementProps (<[k := e1]> props))
    = styleConfigProps (useButtonGroup h) (omitValidElementProps (<[k := e2]> props)) ∧
  elem_props (Button h (<[k := e1]> props) ref) !! "__css"
    = elem_props (Button h (<[k := e2]> props) ref) !! "__css".
Proof.
  intros H1 H2 Hk.
  assert (omitValidElementProps (<[k := e1]> props)
          = omitValidElementProps (<[k := e2]> props)) as Hsame.
  { by rewrite !omitValidElementProps_insert_element. }
  split; [by rewrite Hsame|].
  rewrite !lookup_root, !lookup_rest.
  rewrite !decide_False by key_fresh.
  rewrite !lookup_insert_ne by done.
  destruct (props !! "__css"); [done|].
  read_literal. by rewrite Hsame.
Qed.

Lemma elements_invisible_to_styles_witness :
  let props := object [Field "children" Sample.label; Field "size" (VStr "sm")] in
  elem_props (Button Sample.grouped (<["leftIcon" := Sample.icon "add"]> props) VNull) !! "__css"
    = elem_props (Button Sample.grouped (<["leftIcon" := Sample.icon "remove"]> props) VNull)
        !! "__css".
Proof.
  intros props.
  apply (elements_invisible_to_styles Sample.grouped props VNull "leftIcon");
    [reflexivity | reflexivity | discriminate].
Defined.

(** The bag handed to the theme engine holds, at each key, the caller's
    value when it is no element, and the group's value otherwise: an
    element-valued property does not shadow the group's setting. *)
Theorem styleConfigProps_lookup (group : option obj) (props : obj) (k : string) :
  styleConfigProps group (omitValidElementProps props) !! k =
    match props !! k with
    | Some v => if isValidElement v then group ≫= (.!! k) else Some v
    | None => group ≫= (.!! k)
    end.
Proof.
  unfold styleConfigProps. rewrite lookup_object. cbn [foldl pick].
  assert (spread (group_value group) !! k = group ≫= (.!! k)) as ->.
  { destruct group; cbn; [done | apply lookup_empty]. }
  destruct (props !! k) as [v|] eqn:Hk.
  - destruct (isValidElement v) eqn:Hv.
    + assert (omitValidElementProps props !! k = None) as ->.
      { apply eq_None_not_Some. intros [w Hw].
        apply lookup_omitValidElementProps in Hw as [Hw1 Hw2].
        congruence. }
      by destruct (group ≫= (.!! k)).
    + assert (omitValidElementProps props !! k = Some v) as ->.
      { by apply lookup_omitValidElementProps. }
      done.
  - assert (omitValidElementProps props !! k = None) as ->.
    { apply eq_None_not_Some. intros [w Hw].
      apply lookup_omitValidElementProps in Hw as [Hw1 Hw2].
      congruence. }
    by destruct (group ≫= (.!! k)).
Qed.

(** ** Further attributes of the root (lines 82 and 92-102) *)

Lemma type_eq (group : option obj) (props : obj) :
  type_ (destructure group props) = get props "type".
Proof. apply get_omitThemingProps. key_fresh. Qed.

Lemma as_eq (group : option obj) (props : obj) :
  as_ (destructure group props) = get props "as".
Proof. apply get_omitThemingProps. key_fresh. Qed.

(** The [type] of the root is the caller's [type] unless that is undefined
    or null, in which case it is the default [useButtonType] derives from
    [as]; [as] itself is handed on as given.  Both names are bound by the
    destructuring pattern, so no passthrough property replaces them. *)
Theorem root_type_and_as (h : hooks) (props : obj) (ref : value) :
  elem_props (Button h props ref) !! "as" = Some (get props "as") ∧
  elem_props (Button h props ref) !! "type"
    = Some (match get props "type" with
            | VUndefined | VNull => get (useButtonType h (get props "as")) "type"
            | t => t
            end).
Proof.
  split.
  - rewrite lookup_root, lookup_rest.
    rewrite decide_True by key_fresh.
    read_literal. by rewrite as_eq.
  - rewrite lookup_root, lookup_rest.
    rewrite decide_True by key_fresh.
    read_literal. rewrite type_eq, as_eq.
    by destruct (get props "type").
Qed.

(** The root's ref is the merge of the forwarded ref with the ref
    [useButtonType] needs, for every input that holds no [ref] property. *)
Theorem root_ref_merged (h : hooks) (props : obj) (ref : value) :
  props !! "ref" = None →
  elem_props (Button h props ref) !! "ref"
    = Some (useMergeRefs h ref (get (useButtonType h (get props "as")) "ref")).
Proof.
  intros Hnone. rewrite lookup_root, lookup_rest.
  rewrite decide_False by key_fresh. rewrite Hnone.
  read_literal. by rewrite as_eq.
Qed.

Lemma root_ref_merged_witness :
  elem_props (Button Sample.plain (object [Field "children" Sample.label]) (VStr "outer"))
    !! "ref" = Some (VStr "outer").
Proof.
  rewrite root_ref_merged; vm_compute; reflexivity.
Defined.

(** No option of [Button] and no theming property is written on the root
    under its own name, [as], [type] and [className] apart: [isLoading],
    [loadingText], [iconSpacing], [variant] and the like stay out of the
    DOM. *)
Theorem options_stay_off_root (h : hooks) (props : obj) (ref : value) (k : string) :
  k ∈ (buttonOptions ++ themingProps)%list →
  k ∉ ["as"; "type"; "className"] →
  elem_props (Button h props ref) !! k = None.
Proof.
  intros Hk Hnot. rewrite lookup_root, lookup_rest.
  rewrite decide_True by done.
  unfold buttonOptions, themingProps in Hk. cbn [app] in Hk.
  repeat (apply elem_of_cons in Hk as [->|Hk];
          [first [ by read_literal
                 | exfalso; apply Hnot; apply (bool_decide_unpack _); by vm_compute ]|]).
  by apply elem_of_nil in Hk.
Qed.

Lemma options_stay_off_root_witness :
  let props := object [ Field "isLoading" (VBool true);
                        Field "loadingText" (VStr "Saving");
                        Field "variant" (VStr "ghost") ] in
  elem_props (Button Sample.plain props VNull) !! "loadingText" = None ∧
  elem_props (Button Sample.plain props VNull) !! "variant" = None.
Proof.
  intros props.
  split; apply options_stay_off_root; key_fresh.
Defined.

(** ** Further properties of the disabled state (lines 41 and 94) *)

Lemma root_disabled (h : hooks) (props : obj) (ref : value) :
  props !! "disabled" = None →
  elem_props (Button h props ref) !! "disabled"
    = Some (or_ (get_default props "isDisabled" (group_get (useButtonGroup h) "isDisabled"))
                (get props "isLoading")).
Proof.
  intros Hnone. rewrite lookup_root, lookup_rest.
  rewrite decide_False by key_fresh. rewrite Hnone.
  read_literal. by rewrite isDisabled_eq, isLoading_eq.
Qed.

(** A button that leaves [isDisabled] out inherits a disabled group: its
    root is disabled whether or not it is loading. *)
Theorem group_disables_root (h : hooks) (props : obj) (ref : value) (g : obj) :
  useButtonGroup h = Some g →
  get g "isDisabled" = VBool true →
  get props "isDisabled" = VUndefined →
  props !! "disabled" = None →
  elem_props (Button h props ref) !! "disabled" = Some (VBool true).
Proof.
  intros Hg Hd Hu Hnone. rewrite root_disabled by done.
  unfold get_default. by rewrite Hu, Hg; cbn; rewrite Hd.
Qed.

Lemma group_disables_root_witness :
  elem_props (Button Sample.grouped (object [Field "children" Sample.label]) VNull)
    !! "disabled" = Some (VBool true).
Proof.
  eapply group_disables_root; vm_compute; reflexivity.
Defined.

(** An explicit boolean [isDisabled] decides alone, whatever the group
    says: with [isDisabled = false] a button that is not loading is enabled
    even inside a disabled group. *)
Theorem explicit_isDisabled_beats_group (h : hooks) (props : obj) (ref : value) (b : bool) :
  get props "isDisabled" = VBool b →
  truthy (get props "isLoading") = false →
  props !! "disabled" = None →
  truthy (get (elem_props (Button h props ref)) "disabled") = b.
Proof.
  intros Hb Hl Hnone.
  erewrite get_lookup_Some by (by apply root_disabled).
  unfold get_default, or_. rewrite Hb. cbn [truthy].
  by destruct b.
Qed.

Lemma explicit_isDisabled_beats_group_witness :
  truthy (get (elem_props (Button Sample.grouped
                             (object [Field "isDisabled" (VBool false)]) VNull))
              "disabled") = false.
Proof.
  apply explicit_isDisabled_beats_group; vm_compute; reflexivity.
Defined.

(** The group's default replaces an undefined [isDisabled] only: a null
    [isDisabled] is kept, so the button is not disabled by its group. *)
Theorem null_isDisabled_ignores_group (h : hooks) (props : obj) (ref : value) :
  get props "isDisabled" = VNull →
  props !! "disabled" = None →
  elem_props (Button h props ref) !! "disabled" = Some (get props "isLoading").
Proof.
  intros Hnull Hnone. rewrite root_disabled by done.
  unfold get_default. by rewrite Hnull.
Qed.

Lemma null_isDisabled_ignores_group_witness :
  elem_props (Button Sample.grouped (object [Field "isDisabled" VNull]) VNull)
    !! "disabled" = Some VUndefined.
Proof.
  rewrite null_isDisabled_ignores_group; vm_compute; reflexivity.
Defined.

(** ** Further properties of the children (lines 104-134 and 146-173) *)

Lemma ButtonContent_renders (props : obj) :
  renders_nothing (ButtonContent props) = false.
Proof. unfold ButtonContent. by destruct (negb _). Qed.

Lemma content_children (group : option obj) (props : obj) :
  elem_children (ButtonContent (contentProps (destructure group props))) =
    [ and_ (get props "leftIcon")
        (ButtonIcon [Field "marginEnd" (get_default props "iconSpacing" (VStr "0.5rem"))]
                    [get props "leftIcon"]);
      get props "children";
      and_ (get props "rightIcon")
        (ButtonIcon [Field "marginStart" (get_default props "iconSpacing" (VStr "0.5rem"))]
                    [get props "rightIcon"]) ].
Proof.
  rewrite ButtonContent_children.
  destruct (get_contentProps group props) as (-> & -> & -> & -> & _). done.
Qed.

(** A button that is not loading (its [isLoading] undefined or false) shows
    no spinner and no hidden container: the only node under the root is
    [ButtonContent], holding the icons, spaced by [iconSpacing] or by 0.5rem
    when that is left out, around the children. *)
Theorem idle_button_children (h : hooks) (props : obj) (ref : value) :
  opt_bool (get props "isLoading") = true →
  truthy (get props "isLoading") = false →
  let content := ButtonContent (contentProps (destructure (useButtonGroup h) props)) in
  let spacing := get_default props "iconSpacing" (VStr "0.5rem") in
  child_nodes (elem_children (Button h props ref)) = [content] ∧
  elem_children content =
    [ and_ (get props "leftIcon")
        (ButtonIcon [Field "marginEnd" spacing] [get props "leftIcon"]);
      get props "children";
      and_ (get props "rightIcon")
        (ButtonIcon [Field "marginStart" spacing] [get props "rightIcon"]) ].
Proof.
  intros Hty Hidle content spacing. split; [|apply content_children].
  rewrite root_children. unfold spinnerStart, spinnerEnd, body.
  rewrite isLoading_eq. fold content.
  pose proof (ButtonContent_renders
                (contentProps (destructure (useButtonGroup h) props))) as Hshown.
  fold content in Hshown. clearbody content.
  destruct (get props "isLoading") as [| |[]| | | |];
    try discriminate Hty; try discriminate Hidle;
    cbn; by rewrite Hshown.
Qed.

Lemma idle_button_children_witness :
  let props := object [Field "leftIcon" (Sample.icon "add"); Field "children" Sample.label] in
  child_nodes (elem_children (Button Sample.plain props VNull))
    = [ jsx Fragment []
          [ jsx (Component "ButtonIcon") [Field "marginEnd" (VStr "0.5rem")]
                [Sample.icon "add"];
            Sample.label;
            VUndefined ] ].
Proof.
  intros props.
  destruct (idle_button_children Sample.plain props VNull) as [Hnodes _];
    [vm_compute; reflexivity .. |].
  rewrite Hnodes. vm_compute. reflexivity.
Defined.

(** A loading button that leaves [spinnerPlacement] out shows its spinner
    before the content. *)
Theorem loading_default_placement (h : hooks) (props : obj) (ref : value) :
  get props "isLoading" = VBool true →
  get props "spinnerPlacement" = VUndefined →
  elem_children (Button h props ref)
    = [ spinnerAt AtStart props;
        body (destructure (useButtonGroup h) props);
        VBool false ].
Proof.
  intros Hloading Hpl.
  rewrite loading_children by done.
  unfold loading_frame, get_default. by rewrite Hpl.
Qed.

Lemma loading_default_placement_witness :
  let props := object [Field "isLoading" (VBool true); Field "loadingText" (VStr "Saving")] in
  elem_children (Button Sample.plain props VNull)
    = [spinnerAt AtStart props; VStr "Saving"; VBool false].
Proof.
  intros props.
  rewrite loading_default_placement; vm_compute; reflexivity.
Defined.

(** A loading button never shows two spinners: of the two spinner slots at
    most one holds a spinner and the other holds [false]; a placement that
    is neither start nor end leaves both slots empty. *)
Theorem spinner_slots_exclusive (h : hooks) (props : obj) (ref : value) :
  get props "isLoading" = VBool true →
  let content := body (destructure (useButtonGroup h) props) in
  let placed := get_default props "spinnerPlacement" (VStr "start") in
  elem_children (Button h props ref) =
    match placed with
    | VStr s =>
        if String.eqb s "start" then [spinnerAt AtStart props; content; VBool false]
        else if String.eqb s "end" then [VBool false; content; spinnerAt AtEnd props]
        else [VBool false; content; VBool false]
    | _ => [VBool false; content; VBool false]
    end.
Proof.
  intros Hloading content placed.
  rewrite loading_children by done. unfold loading_frame. fold content placed.
  destruct placed as [| | | |s| |]; try reflexivity.
  cbn [strict_eq_str].
  destruct (String.eqb_spec s "start") as [->|Hs]; [done|].
  by destruct (String.eqb s "end").
Qed.

Lemma spinner_slots_exclusive_witness :
  let props := object [Field "isLoading" (VBool true);
                       Field "spinnerPlacement" (VStr "middle");
                       Field "loadingText" (VStr "Saving")] in
  elem_children (Button Sample.plain props VNull) = [VBool false; VStr "Saving"; VBool false].
Proof.
  intros props.
  rewrite spinner_slots_exclusive; vm_compute; reflexivity.
Defined.

Lemma contentProps_insert_isLoading (group : option obj) (props : obj) (v : value) :
  contentProps (destructure group (<["isLoading" := v]> props))
    = contentProps (destructure group props).
Proof.
  unfold contentProps.
  rewrite !rightIcon_eq, !leftIcon_eq, !iconSpacing_eq, !children_eq, !shouldWrapChildren_eq.
  unfold get_default. by rewrite !get_insert_ne.
Qed.

(** What a loading button without loading text hides is what it would show
    when not loading: the child of its zero-opacity container is the
    middle child of the same button with [isLoading] false, so the layout
    does not change between the two states. *)
Theorem hidden_content_is_idle_content (h : hooks) (props : obj) (ref : value) :
  get props "isLoading" = VBool true →
  truthy (get props "loadingText") = false →
  ∃ content,
    elem_children (Button h (<["isLoading" := VBool false]> props) ref) !! 1%nat
      = Some content ∧
    elem_children (Button h props ref) !! 1%nat = Some (hidden content) ∧
    renders_nothing content = false.
Proof.
  intros Hloading Hfalsy.
  exists (ButtonContent (contentProps (destructure (useButtonGroup h) props))).
  split; [|split].
  - rewrite root_children. cbn [lookup list_lookup]. unfold body.
    rewrite contentProps_insert_isLoading, isLoading_eq.
    unfold get at 1. by rewrite lookup_insert_eq.
  - rewrite loading_children by done. cbn [loading_frame lookup list_lookup].
    rewrite loading_body by done. by rewrite Hfalsy.
  - apply ButtonContent_renders.
Qed.

Lemma hidden_content_is_idle_content_witness :
  let props := object [Field "isLoading" (VBool true); Field "children" Sample.label] in
  elem_children (Button Sample.plain props VNull) !! 1%nat
    = Some (hidden (jsx Fragment [] [VUndefined; Sample.label; VUndefined])).
Proof.
  intros props.
  destruct (hidden_content_is_idle_content Sample.plain props VNull)
    as (content & Hidle & Hhidden & _); [vm_compute; reflexivity .. |].
  rewrite Hhidden. f_equal. f_equal.
  apply (inj Some). rewrite <- Hidle. vm_compute. reflexivity.
Defined.

(** [shouldWrapChildren] changes the container only: the sequence of
    children is the same in both modes, inside a fragment when the flag is
    falsy and inside a span when it is truthy. *)
Theorem wrapping_keeps_children (props : obj) (w : value) :
  elem_children (ButtonContent (<["shouldWrapChildren" := w]> props))
    = elem_children (ButtonContent props) ∧
  elem_type (ButtonContent (<["shouldWrapChildren" := w]> props))
    = Some (if truthy w then Host "span" else Fragment).
Proof.
  split.
  - rewrite !ButtonContent_children. by rewrite !get_insert_ne.
  - rewrite ButtonContent_type. unfold get. by rewrite lookup_insert_eq.
Qed.

(** An icon slot that is given [false], [null], [undefined] or any other
    falsy value React draws nothing for yields no node, as for a
    conditional icon whose condition fails: only the children remain. *)
Theorem empty_icon_slots (props : obj) :
  truthy (get props "leftIcon") = false →
  renders_nothing (get props "leftIcon") = true →
  truthy (get props "rightIcon") = false →
  renders_nothing (get props "rightIcon") = true →
  child_nodes (elem_children (ButtonContent props)) = child_nodes [get props "children"].
Proof.
  intros HL HLr HR HRr.
  rewrite ButtonContent_children. unfold and_. rewrite HL, HR.
  unfold child_nodes. cbn [List.filter]. rewrite HLr, HRr. cbn.
  by destruct (renders_nothing (get props "children")).
Qed.

Lemma empty_icon_slots_witness :
  child_nodes (elem_children (ButtonContent
     (object [ Field "leftIcon" (VBool false); Field "rightIcon" VNull;
               Field "children" Sample.label ])))
    = [Sample.label].
Proof.
  rewrite empty_icon_slots; vm_compute; reflexivity.
Defined.

(** ** A further property of the style object (lines 64-80) *)

(** Inside a group the focus style keeps everything the theme's focus style
    says and only sets [zIndex]: a [zIndex] of the theme's own is replaced
    by 1, every other key of the theme's focus style is carried over, and
    no key is added. *)
Theorem group_focus_keeps_theme (styles : obj) (g theme_focus : obj) :
  styles !! "_focus" = Some (VObj theme_focus) →
  ∃ focus,
    buttonStyles styles (Some g) !! "_focus" = Some (VObj focus) ∧
    focus !! "zIndex" = Some (VNum 1) ∧
    (∀ k, k ≠ "zIndex" → focus !! k = theme_focus !! k).
Proof.
  intros Htheme.
  exists (<["zIndex" := VNum 1]> theme_focus). split; [|split].
  - rewrite buttonStyles_union, lookup_union. cbn [focus_override].
    rewrite lookup_singleton_eq.
    rewrite (get_lookup_Some _ _ _ Htheme). cbn [spread].
    by destruct ((styles ∪ object baseStyles) !! "_focus").
  - apply lookup_insert_eq.
  - intros k Hk. by rewrite lookup_insert_ne.
Qed.

Lemma group_focus_keeps_theme_witness :
  ∃ focus,
    buttonStyles
      (object [Field "_focus" (VObj (object [ Field "boxShadow" (VStr "outline");
                                              Field "zIndex" (VNum 5) ]))])
      (Some ∅) !! "_focus" = Some (VObj focus) ∧
    focus !! "zIndex" = Some (VNum 1) ∧
    focus !! "boxShadow" = Some (VStr "outline").
Proof.
  destruct (group_focus_keeps_theme
              (object [Field "_focus" (VObj (object [ Field "boxShadow" (VStr "outline");
                                                      Field "zIndex" (VNum 5) ]))])
              ∅
              (object [Field "boxShadow" (VStr "outline"); Field "zIndex" (VNum 5)]))
    as (focus & Hfocus & Hz & Hkeep); [vm_compute; reflexivity|].
  exists focus. split; [exact Hfocus|]. split; [exact Hz|].
  rewrite Hkeep by discriminate. vm_compute. reflexivity.
Defined.
